(** * Water Status Dashboard (src/App.jsx): a shallow embedding

    The dashboard loads two JSON resources, draws a map of districts and
    charts the time series of the district the user clicks.  This file
    embeds the data loader [useWaterData], the per-feature wiring of the
    map [MapComponent.onEachFeature], the chart view [ChartComponent] and
    the root component [App], together with the parts of the JavaScript
    platform they rely on (string trimming and lower-casing, truthiness,
    property lookup and key order of ordinary objects, promises that
    settle), and proves the properties of the specification.

    Conventions.
    - A JavaScript string is a [string]: a sequence of code units, each in
      the range U+0000..U+00FF (the Latin-1 block of Unicode).  [trim] and
      [toLowerCase] are the platform's functions on that range.
    - [null] and [undefined] are written out where the code distinguishes
      them ([slot]); a state that is either [null] or a string is an
      [option string].
    - A JavaScript number is a binary64 float; the code only passes the
      numbers on.
    - The debugging effect of [App] (lines 183-196) only writes to the
      console and is left out. *)

From Stdlib Require Import String Ascii List Bool NArith Arith Permutation Sorted.
From Stdlib Require Import Floats.PrimFloat.
Import ListNotations.

Set Warnings "-inexact-float".

Local Open Scope string_scope.
Local Open Scope list_scope.

(** ** The platform: strings *)

Module JsString.

(** Code unit of a character. *)
Definition code (c : ascii) : N := N_of_ascii c.

(** WhiteSpace and LineTerminator code points (ECMAScript 12.2, 12.3)
    below U+0100: TAB, LF, VT, FF, CR, SP, NBSP. *)
Definition isWhiteSpace (c : ascii) : bool :=
  let n := code c in
  ((9 <=? n) && (n <=? 13) || (n =? 32) || (n =? 160))%N.

(** Unicode lower-case mapping below U+0100: A-Z and the capital letters
    U+00C0..U+00DE other than the multiplication sign U+00D7 move up by
    0x20, every other character is kept. *)
Definition isUpper (c : ascii) : bool :=
  let n := code c in
  ((65 <=? n) && (n <=? 90)
   || (192 <=? n) && (n <=? 222) && negb (n =? 215))%N.

Definition lowerChar (c : ascii) : ascii :=
  if isUpper c then ascii_of_N (code c + 32) else c.

(** [String.prototype.toLowerCase]. *)
Fixpoint toLowerCase (s : string) : string :=
  match s with
  | EmptyString => EmptyString
  | String c r => String (lowerChar c) (toLowerCase r)
  end.

(** [String.prototype.trimStart]. *)
Fixpoint trimStart (s : string) : string :=
  match s with
  | EmptyString => EmptyString
  | String c r => if isWhiteSpace c then trimStart r else s
  end.

(** [String.prototype.trimEnd]. *)
Fixpoint trimEnd (s : string) : string :=
  match s with
  | EmptyString => EmptyString
  | String c r =>
      match trimEnd r with
      | EmptyString => if isWhiteSpace c then EmptyString else String c EmptyString
      | r' => String c r'
      end
  end.

(** [String.prototype.trim]: white space removed at both ends. *)
Definition trim (s : string) : string := trimEnd (trimStart s).

(** ToBoolean on a string: only the empty string is falsy. *)
Definition truthy (s : string) : bool :=
  match s with EmptyString => false | String _ _ => true end.

(** ToBoolean on a state that holds [null] or a string. *)
Definition truthy_opt (x : option string) : bool :=
  match x with Some s => truthy s | None => false end.

(** [x ? yes(x) : no] where [x] is a string, [null] or [undefined]. *)
Definition ifTruthy {A} (x : option string) (yes : string -> A) (no : A) : A :=
  match x with
  | Some s => if truthy s then yes s else no
  | None => no
  end.

(** [x || d] where [x] is a string, [null] or [undefined]. *)
Definition or_default (x : option string) (d : string) : string :=
  ifTruthy x (fun s => s) d.

End JsString.

Import JsString.

(** ** The platform: ordinary objects

    An object as [JSON.parse] creates it: its own properties are
    enumerable data properties with string keys, and its prototype is
    [Object.prototype].  It is represented by the association list of its
    own properties in the order they were created. *)

Module JsObject.

Section Properties.

Context {V : Type}.

Definition obj : Type := list (string * V).

(** Well-formed: a key names at most one own property. *)
Definition wf (o : obj) : Prop := NoDup (map fst o).

(** The own property of key [k], if any. *)
Fixpoint own (o : obj) (k : string) : option V :=
  match o with
  | [] => None
  | (k', v) :: r => if String.eqb k' k then Some v else own r k
  end.

(** CreateDataProperty: a new key is added last, an existing one keeps
    its place and takes the new value. *)
Fixpoint define (o : obj) (k : string) (v : V) : obj :=
  match o with
  | [] => [(k, v)]
  | (k', v') :: r =>
      if String.eqb k' k then (k', v) :: r else (k', v') :: define r k v
  end.

(** The object built from the members of a JSON object text, in the
    order of the text. *)
Definition fromMembers (ms : list (string * V)) : obj :=
  fold_left (fun o m => define o (fst m) (snd m)) ms [].

(** Array index (ECMAScript 6.1.7): a key that is the canonical decimal
    numeral of an integer in 0 .. 2^32 - 2. *)
Definition isDigit (c : ascii) : bool :=
  ((48 <=? code c) && (code c <=? 57))%N.

Fixpoint digits (acc : N) (s : string) : option N :=
  match s with
  | EmptyString => Some acc
  | String c r =>
      if isDigit c then digits (acc * 10 + (code c - 48))%N r else None
  end.

Definition arrayIndex (k : string) : option N :=
  match k with
  | EmptyString => None
  | String c r =>
      if (code c =? 48)%N && truthy r then None
      else match digits 0%N k with
           | Some n => if (n <? 4294967295)%N then Some n else None
           | None => None
           end
  end.

(** OrdinaryOwnPropertyKeys (ECMAScript 10.1.11): the array-index keys in
    ascending numeric order, then the other keys in order of creation. *)
Fixpoint insertIndexed (n : N) (p : string * V) (l : list (N * (string * V)))
  : list (N * (string * V)) :=
  match l with
  | [] => [(n, p)]
  | (m, q) :: r =>
      if (n <=? m)%N then (n, p) :: l else (m, q) :: insertIndexed n p r
  end.

Fixpoint indexed (o : obj) : list (N * (string * V)) :=
  match o with
  | [] => []
  | p :: r =>
      match arrayIndex (fst p) with
      | Some n => insertIndexed n p (indexed r)
      | None => indexed r
      end
  end.

Definition isNamed (p : string * V) : bool :=
  match arrayIndex (fst p) with Some _ => false | None => true end.

Definition named (o : obj) : list (string * V) := filter isNamed o.

(** [Object.entries] and [Object.keys]. *)
Definition Object_entries (o : obj) : list (string * V) :=
  map snd (indexed o) ++ named o.

Definition Object_keys (o : obj) : list string := map fst (Object_entries o).

End Properties.

Arguments obj : clear implicits.

(** The properties every ordinary object inherits from [Object.prototype]
    (ECMAScript 20.1.3 and B.2.2): functions, and the accessor [__proto__]
    that returns the prototype.  None of these values has an enumerable
    own property. *)
Definition ObjectPrototype : list string :=
  [ "constructor"; "hasOwnProperty"; "isPrototypeOf"; "propertyIsEnumerable";
    "toLocaleString"; "toString"; "valueOf"; "__proto__";
    "__defineGetter__"; "__defineSetter__"; "__lookupGetter__";
    "__lookupSetter__" ].

Definition inherited (k : string) : bool :=
  existsb (String.eqb k) ObjectPrototype.

(** What an expression of the program that is [null], the result of a
    property access, or an object of the data model evaluates to. *)
Inductive slot (V : Type) : Type :=
| Null
| Undefined
| Own (v : V)
| Intrinsic.

Arguments Null {V}.
Arguments Undefined {V}.
Arguments Own {V} v.
Arguments Intrinsic {V}.

(** [o[k]]: the own property, else the inherited one, else [undefined]. *)
Definition Get {V} (o : obj V) (k : string) : slot V :=
  match own o k with
  | Some v => Own v
  | None => if inherited k then Intrinsic else Undefined
  end.

(** ToBoolean: [null] and [undefined] are falsy, every object is truthy. *)
Definition truthy_slot {V} (x : slot V) : bool :=
  match x with
  | Null | Undefined => false
  | Own _ | Intrinsic => true
  end.

(** [Object.keys(x)] and [Object.entries(x)] for a truthy [x]: the own
    enumerable properties; an intrinsic has none.  (On [null] and
    [undefined] the platform throws; the program never gets there, see
    [ChartComponent].) *)
Definition keysOf {V} (x : slot (obj V)) : list string :=
  match x with Own o => Object_keys o | _ => [] end.

Definition entriesOf {V} (x : slot (obj V)) : list (string * V) :=
  match x with Own o => Object_entries o | _ => [] end.

End JsObject.

Import JsObject.

(** ** The platform: promises that have settled *)

Module Promise.

(** An [Error] object, as far as the program reads it. *)
Record JsError : Type := Error { message : string }.

Inductive settled (A : Type) : Type :=
| Fulfilled (a : A)
| Rejected (reason : JsError).

Arguments Fulfilled {A} a.
Arguments Rejected {A} reason.

(** A [Response]: its [ok] flag (status in 200..299) and what [json()]
    settles to (rejected when the body cannot be read or parsed). *)
Record Response (A : Type) : Type := mkResponse { ok : bool; json : settled A }.

Arguments mkResponse {A} ok json.
Arguments ok {A} r.
Arguments json {A} r.

(** [Promise.all([a, b])]: fulfilled with both values, rejected with the
    reason of the promise that rejects first. *)
Definition all {A B} (b_first : bool) (a : settled A) (b : settled B)
  : settled (A * B) :=
  match a, b with
  | Fulfilled x, Fulfilled y => Fulfilled (x, y)
  | Rejected e, Fulfilled _ => Rejected e
  | Fulfilled _, Rejected e => Rejected e
  | Rejected ea, Rejected eb => Rejected (if b_first then eb else ea)
  end.

End Promise.

Import Promise.

(** ** Data model *)

(** A JavaScript number. *)
Definition number : Type := PrimFloat.float.

(** Year label to value. *)
Definition WaterSeries : Type := obj number.

(** District key to series. *)
Definition TwsDataset : Type := obj WaterSeries.

(** The [properties] object of a feature, as far as the program reads it:
    the display name, a string when present. *)
Record Properties : Type := mkProperties {
  DISTRICT : option string   (* [None]: the feature has no such property *)
}.

(** A feature whose [properties] member is an object. *)
Record Feature : Type := mkFeature {
  properties : Properties;
  geometry : list (list (number * number))   (* rings of a polygon *)
}.

(** A feature as a boundary collection holds it: GeoJSON lets the
    [properties] member be [null]. *)
Inductive ReceivedFeature : Type :=
| WithProperties (feature : Feature)
| NullProperties (geometry : list (list (number * number))).

Record BoundaryCollection : Type := mkCollection {
  features : list ReceivedFeature
}.

(** ** The data loader: [useWaterData] (lines 19-66) *)

(** The [data] state: [{ tws, geojson }]. *)
Record Data : Type := mkData {
  tws : TwsDataset;
  geojson : option BoundaryCollection   (* [None]: [null] *)
}.

(** The three [useState] cells of the hook. *)
Record HookState : Type := mkHook {
  data : Data;
  loading : bool;
  error : option string   (* [None]: [null] *)
}.

(** [useState({ tws: {}, geojson: null })], [useState(true)],
    [useState(null)]. *)
Definition initialData : Data := {| tws := []; geojson := None |}.

Definition initialState : HookState :=
  {| data := initialData; loading := true; error := None |}.

(** What the two requests of one session settle to, and which of them
    settles first (it matters to [Promise.all] when both reject). *)
Record Network : Type := mkNetwork {
  tws_fetch : settled (Response TwsDataset);
  boundaries_fetch : settled (Response BoundaryCollection);
  boundaries_first : bool
}.

(** An [async] body over the hook's state: it returns the state it
    leaves and either a value or the error it threw. *)
Definition Async (A : Type) : Type := HookState -> HookState * settled A.

Definition ret {A} (a : A) : Async A := fun s => (s, Fulfilled a).

Definition bind {A B} (m : Async A) (k : A -> Async B) : Async B :=
  fun s =>
    match m s with
    | (s', Fulfilled a) => k a s'
    | (s', Rejected e) => (s', Rejected e)
    end.

Definition throw {A} (e : JsError) : Async A := fun s => (s, Rejected e).

Definition await {A} (p : settled A) : Async A := fun s => (s, p).

Definition setData (d : Data) : Async unit :=
  fun s => ({| data := d; loading := loading s; error := error s |}, Fulfilled tt).

Definition setLoading (b : bool) : Async unit :=
  fun s => ({| data := data s; loading := b; error := error s |}, Fulfilled tt).

Definition setError (e : option string) : Async unit :=
  fun s => ({| data := data s; loading := loading s; error := e |}, Fulfilled tt).

(** [try { body } catch (err) { handler } finally { final }]. *)
Definition try_catch_finally (body : Async unit) (handler : JsError -> Async unit)
    (final : Async unit) : Async unit :=
  fun s =>
    let (s1, r1) :=
      match body s with
      | (s', Fulfilled _) => (s', Fulfilled tt)
      | (s', Rejected err) => handler err s'
      end in
    match final s1 with
    | (s2, Fulfilled _) => (s2, r1)
    | (s2, Rejected e) => (s2, Rejected e)
    end.

Notation "x <- m ;; k" := (bind m (fun x => k))
  (at level 61, m at next level, right associativity).
Notation "' p <- m ;; k" := (bind m (fun x => match x with p => k end))
  (at level 61, p pattern, m at next level, right associativity).

(** [fetchData] (lines 25-61). *)
Definition fetchData (net : Network) : Async unit :=
  try_catch_finally
    ('(twsRes, geojsonRes) <-
        await (Promise.all (boundaries_first net)
                 (tws_fetch net) (boundaries_fetch net)) ;;
     _ <- (if negb (ok twsRes) || negb (ok geojsonRes)
           then throw (Error "Network response was not ok")
           else ret tt) ;;
     geojsonData <- await (json geojsonRes) ;;
     twsLookupObject <- await (json twsRes) ;;
     setData {| tws := twsLookupObject; geojson := Some geojsonData |})
    (fun err => setError (Some (message err)))
    (setLoading false).

(** What the hook returns: [{ ...data, loading, error }]. *)
Record HookResult : Type := mkResult {
  r_tws : TwsDataset;
  r_geojson : option BoundaryCollection;
  r_loading : bool;
  r_error : option string
}.

Definition result (s : HookState) : HookResult :=
  {| r_tws := tws (data s); r_geojson := geojson (data s);
     r_loading := loading s; r_error := error s |}.

(** The state of the hook once the effect has run to its end. *)
Definition loaded (net : Network) : HookState := fst (fetchData net initialState).

(** The hook on the first render, and once the effect has run. *)
Definition useWaterData_mount : HookResult := result initialState.

Definition useWaterData (net : Network) : HookResult := result (loaded net).

(** ** The map: [MapComponent] (lines 69-111) *)

Record TooltipOptions : Type := mkTooltip {
  permanent : bool;
  direction : string;
  className : string
}.

Record PathStyle : Type := mkStyle { weight : N; color : string }.

(** What [onEachFeature] attaches to the layer of one feature: the
    tooltip, and what each listener does.  [R] is what the click callback
    returns. *)
Record Layer (R : Type) : Type := mkLayer {
  tooltip_text : string;
  tooltip_options : TooltipOptions;
  click : R;
  mouseover : PathStyle;
  mouseout : PathStyle
}.

Arguments mkLayer {R}.
Arguments tooltip_text {R}.
Arguments tooltip_options {R}.
Arguments click {R}.
Arguments mouseover {R}.
Arguments mouseout {R}.

(** [feature.properties.DISTRICT || "Unknown"] (line 71), on a feature
    whose [properties] member is an object. *)
Definition districtName (feature : Feature) : string :=
  or_default (DISTRICT (properties feature)) "Unknown".

(** The body of [onEachFeature] (lines 71-82) on a feature whose
    [properties] member is an object. *)
Definition onEachFeature {R} (onDistrictClick : string -> R) (feature : Feature)
  : Layer R :=
  {| tooltip_text := districtName feature;
     tooltip_options :=
       {| permanent := false; direction := "center";
          className := "leaflet-tooltip" |};
     click := onDistrictClick (districtName feature);
     mouseover := {| weight := 3; color := "#3b82f6" |};
     mouseout := {| weight := 1; color := "#60a5fa" |} |}.

(** [onEachFeature(feature, layer)] on any feature of the collection.
    Line 71 reads [feature.properties.DISTRICT] first: when [properties]
    is [null] that throws a TypeError before anything is attached to the
    layer ([None]). *)
Definition onEachFeature_received {R} (onDistrictClick : string -> R)
    (feature : ReceivedFeature) : option (Layer R) :=
  match feature with
  | WithProperties f => Some (onEachFeature onDistrictClick f)
  | NullProperties _ => None
  end.

Module Leaflet.

(** The path options of a layer that the program sets. *)
Record PathOptions : Type := mkOptions {
  color : string;
  weight : N;
  opacity : number;
  fillColor : string;
  fillOpacity : number
}.

End Leaflet.

(** The [style] given to the GeoJSON layer: what every layer starts with. *)
Definition geoJsonStyle : Leaflet.PathOptions :=
  {| Leaflet.color := "#60a5fa";
     Leaflet.weight := 1;
     Leaflet.opacity := 0.8%float;
     Leaflet.fillColor := "#60a5fa";
     Leaflet.fillOpacity := 0.2%float |}.

(** What [MapComponent] hands to the [GeoJSON] component (lines 97-107):
    the collection, the style and the function to run on each feature.
    Building the layers is the component's work. *)
Record GeoJSONProps (R : Type) : Type := mkGeoJSON {
  gj_data : BoundaryCollection;
  gj_style : Leaflet.PathOptions;
  gj_onEachFeature : ReceivedFeature -> option (Layer R)
}.

Arguments mkGeoJSON {R}.
Arguments gj_data {R}.
Arguments gj_style {R}.
Arguments gj_onEachFeature {R}.

(** The rendered map: the base map and, when [geojson] is truthy, the
    [GeoJSON] element. *)
Record MapView (R : Type) : Type := mkMap {
  center : number * number;
  zoom : N;
  scrollWheelZoom : bool;
  geoJSON : option (GeoJSONProps R)
}.

Arguments mkMap {R}.
Arguments center {R}.
Arguments zoom {R}.
Arguments scrollWheelZoom {R}.
Arguments geoJSON {R}.

Definition MapComponent {R} (geojson : option BoundaryCollection)
    (onDistrictClick : string -> R) : MapView R :=
  {| center := (34.0836%float, 74.7973%float);
     zoom := 7;
     scrollWheelZoom := false;
     geoJSON :=
       match geojson with
       | Some g =>
           Some {| gj_data := g;
                   gj_style := geoJsonStyle;
                   gj_onEachFeature := onEachFeature_received onDistrictClick |}
       | None => None
       end |}.

(** ** The chart: [ChartComponent] (lines 114-165) *)

(** One element of [chartData]: [{ year, "TWS (BCM)": value }]. *)
Record Point : Type := mkPoint { year : string; TWS_BCM : number }.

Inductive ChartView : Type :=
| Placeholder (message : string)
| LineChart (chartData : list Point).

Definition ChartComponent (districtData : slot WaterSeries)
    (districtName : option string) : ChartView :=
  if negb (truthy_slot districtData)
     || (length (keysOf districtData) =? 0)%nat
  then
    Placeholder
      (ifTruthy districtName
         (fun name => ("No TWS data is available for " ++ name ++ ".")%string)
         "Click a district on the map to view its water status data.")
  else
    LineChart
      (map (fun '(year, value) => {| year := year; TWS_BCM := value |})
           (entriesOf districtData)).

(** ** The root: [App] (lines 168-245) *)

(** The [selectedDistrict] state: [None] is [null]. *)
Definition Selection : Type := option string.

Definition initialSelection : Selection := None.

(** [handleDistrictClick]: the state after [setSelectedDistrict]. *)
Definition handleDistrictClick (districtName : string) : Selection :=
  Some districtName.

(** The normalized key of a display name: [name.trim().toLowerCase()]
    (lines 177-179). *)
Definition normalize (name : string) : string := toLowerCase (trim name).

(** [selectedDistrict ? selectedDistrict.trim().toLowerCase() : null]. *)
Definition districtKey (selectedDistrict : Selection) : option string :=
  ifTruthy selectedDistrict (fun name => Some (normalize name)) None.

(** [districtKey ? tws[districtKey] : null]. *)
Definition selectedDistrictData (tws : TwsDataset) (selectedDistrict : Selection)
  : slot WaterSeries :=
  ifTruthy (districtKey selectedDistrict) (fun key => Get tws key) Null.

Inductive View : Type :=
| LoadingView (text : string)
| ErrorView (text : string)
| DashboardView (map : MapView Selection) (title : string) (chart : ChartView).

Definition App (hook : HookResult) (selectedDistrict : Selection) : View :=
  if r_loading hook then LoadingView "Loading Dashboard..."
  else
    ifTruthy (r_error hook)
      (fun error => ErrorView ("Error: " ++ error)%string)
      (DashboardView
         (MapComponent (r_geojson hook) handleDistrictClick)
         (or_default selectedDistrict "No District Selected")
         (ChartComponent (selectedDistrictData (r_tws hook) selectedDistrict)
                         selectedDistrict)).

(** A click on the layer of [feature]: the selection it leaves. *)
Definition clickFeature (feature : Feature) : Selection :=
  click (onEachFeature handleDistrictClick feature).

(** Whether a view shows the map, the chart. *)
Definition showsMap (v : View) : bool :=
  match v with DashboardView _ _ _ => true | _ => false end.

Definition showsChart (v : View) : bool :=
  match v with DashboardView _ _ _ => true | _ => false end.

(** ** Vocabulary of the properties *)

Definition rejected {A} (p : settled A) : bool :=
  match p with Fulfilled _ => false | Rejected _ => true end.

(** At least one request fails, or answers with a status outside
    200..299, or has a body that cannot be parsed. *)
Definition load_fails (net : Network) : bool :=
  match tws_fetch net, boundaries_fetch net with
  | Fulfilled twsRes, Fulfilled geojsonRes =>
      negb (ok twsRes) || negb (ok geojsonRes)
      || rejected (json twsRes) || rejected (json geojsonRes)
  | _, _ => true
  end.

(** Every error the platform raises in the session (a request that
    fails, a body that cannot be read or parsed) carries a message that
    is not empty. *)
Definition has_message {A} (p : settled A) : bool :=
  match p with
  | Fulfilled _ => true
  | Rejected e => truthy (message e)
  end.

Definition messages_nonempty (net : Network) : bool :=
  has_message (tws_fetch net)
  && has_message (boundaries_fetch net)
  && match tws_fetch net with
     | Fulfilled twsRes => has_message (json twsRes)
     | Rejected _ => true
     end
  && match boundaries_fetch net with
     | Fulfilled geojsonRes => has_message (json geojsonRes)
     | Rejected _ => true
     end.

(** Both requests answer with a 2xx status and a well-formed body. *)
Definition answers (t : TwsDataset) (g : BoundaryCollection) (b : bool) : Network :=
  {| tws_fetch := Fulfilled (mkResponse true (Fulfilled t));
     boundaries_fetch := Fulfilled (mkResponse true (Fulfilled g));
     boundaries_first := b |}.

(** The hook's result in the ready state. *)
Definition ready (t : TwsDataset) (g : BoundaryCollection) : HookResult :=
  {| r_tws := t; r_geojson := Some g; r_loading := false; r_error := None |}.

(** A feature with a [properties] object holding the given [DISTRICT]
    property, and no geometry. *)
Definition district (name : option string) : Feature :=
  {| properties := {| DISTRICT := name |}; geometry := [] |}.

(** Sample payloads: [{"badgam": {"2010": 1.2, "2011": 1.5}}] with one
    feature named "Badgam"; the same payload keyed by "Badgam"; a payload
    whose only key is the empty string. *)
Definition badgam_series : WaterSeries :=
  fromMembers [("2010", 1.2%float); ("2011", 1.5%float)].

Definition badgam_tws : TwsDataset := fromMembers [("badgam", badgam_series)].

Definition badgam_boundaries : BoundaryCollection :=
  {| features := [WithProperties (district (Some "Badgam"))] |}.

Definition Badgam_tws : TwsDataset := fromMembers [("Badgam", badgam_series)].

Definition blank_tws : TwsDataset := fromMembers [("", badgam_series)].

(** A session in which the time-series request is rejected with an error
    whose message is empty, one in which it is answered with status 404,
    and one in which the body of the time series cannot be parsed after
    the boundaries were parsed. *)
Definition silent_failure : Network :=
  {| tws_fetch := Rejected (Error "");
     boundaries_fetch := Fulfilled (mkResponse true (Fulfilled badgam_boundaries));
     boundaries_first := false |}.

Definition not_found : Network :=
  {| tws_fetch := Fulfilled (mkResponse false (Fulfilled []));
     boundaries_fetch := Fulfilled (mkResponse true (Fulfilled badgam_boundaries));
     boundaries_first := false |}.

Definition bad_body : Network :=
  {| tws_fetch :=
       Fulfilled (mkResponse true (Rejected (Error "Unexpected end of JSON input")));
     boundaries_fetch := Fulfilled (mkResponse true (Fulfilled badgam_boundaries));
     boundaries_first := true |}.

(** ** The map: layer style and pointer events (lines 78-82, 99-105) *)

(** [layer.setStyle(style)]: the given options replace the layer's, the
    others stay. *)
Definition setStyle (o : Leaflet.PathOptions) (style : PathStyle)
  : Leaflet.PathOptions :=
  {| Leaflet.color := color style;
     Leaflet.weight := weight style;
     Leaflet.opacity := Leaflet.opacity o;
     Leaflet.fillColor := Leaflet.fillColor o;
     Leaflet.fillOpacity := Leaflet.fillOpacity o |}.

Inductive PointerEvent : Type := MouseOver | MouseOut.

(** The listener of a layer for a pointer event: [e.target.setStyle(...)]. *)
Definition pointer {R} (layer : Layer R) (e : PointerEvent)
    (o : Leaflet.PathOptions) : Leaflet.PathOptions :=
  match e with
  | MouseOver => setStyle o (mouseover layer)
  | MouseOut => setStyle o (mouseout layer)
  end.

(** The options of a layer after a sequence of pointer events. *)
Definition styleAfter {R} (layer : Layer R) (events : list PointerEvent)
  : Leaflet.PathOptions :=
  fold_left (fun o e => pointer layer e o) events geoJsonStyle.

(** ** The root: the selection after a sequence of clicks *)

(** Each click runs [handleDistrictClick] through the listener of the
    clicked feature; [setSelectedDistrict] replaces the state. *)
Definition selectionAfter (clicks : list Feature) : Selection :=
  fold_left (fun (_ : Selection) feature => clickFeature feature)
            clicks initialSelection.

(** ** Further vocabulary *)

Fixpoint allWhiteSpace (s : string) : bool :=
  match s with
  | EmptyString => true
  | String c r => isWhiteSpace c && allWhiteSpace r
  end.

(** The instruction shown by the chart when nothing is selected. *)
Definition instruction : string :=
  "Click a district on the map to view its water status data.".

(** Sample sessions: both requests rejected; both bodies malformed. *)
Definition both_rejected : Network :=
  {| tws_fetch := Rejected (Error "tws unreachable");
     boundaries_fetch := Rejected (Error "boundaries unreachable");
     boundaries_first := true |}.

Definition both_malformed : Network :=
  {| tws_fetch := Fulfilled (mkResponse true (Rejected (Error "bad tws")));
     boundaries_fetch :=
       Fulfilled (mkResponse true (Rejected (Error "bad boundaries")));
     boundaries_first := false |}.

(** ** Strings: normalization *)

(** *** Facts about characters, by inspection of the 256 code units *)

Ltac all_chars c :=
  destruct c as [[] [] [] [] [] [] [] []]; reflexivity.

Lemma isWhiteSpace_lowerChar c : isWhiteSpace (lowerChar c) = isWhiteSpace c.
Proof. all_chars c. Qed.

Lemma lowerChar_idem c : lowerChar (lowerChar c) = lowerChar c.
Proof. all_chars c. Qed.

(** *** Facts about [toLowerCase] and [trim] *)

Lemma toLowerCase_idem s : toLowerCase (toLowerCase s) = toLowerCase s.
Proof.
  induction s as [|c r IH]; simpl; [reflexivity|].
  now rewrite lowerChar_idem, IH.
Qed.

Lemma toLowerCase_empty s : toLowerCase s = EmptyString -> s = EmptyString.
Proof. destruct s; simpl; [reflexivity | discriminate]. Qed.

Lemma trimStart_toLowerCase s :
  trimStart (toLowerCase s) = toLowerCase (trimStart s).
Proof.
  induction s as [|c r IH]; simpl; [reflexivity|].
  rewrite isWhiteSpace_lowerChar.
  destruct (isWhiteSpace c); [exact IH | reflexivity].
Qed.

Lemma trimEnd_toLowerCase s :
  trimEnd (toLowerCase s) = toLowerCase (trimEnd s).
Proof.
  induction s as [|c r IH]; simpl; [reflexivity|].
  rewrite IH, isWhiteSpace_lowerChar.
  destruct (trimEnd r) as [|d r']; simpl.
  - destruct (isWhiteSpace c); reflexivity.
  - reflexivity.
Qed.

Lemma trim_toLowerCase s : trim (toLowerCase s) = toLowerCase (trim s).
Proof. unfold trim. now rewrite trimStart_toLowerCase, trimEnd_toLowerCase. Qed.

Lemma trimEnd_cons c r :
  trimEnd (String c r) =
  match trimEnd r with
  | EmptyString => if isWhiteSpace c then EmptyString else String c EmptyString
  | r' => String c r'
  end.
Proof. reflexivity. Qed.

Lemma trimEnd_idem s : trimEnd (trimEnd s) = trimEnd s.
Proof.
  induction s as [|c r IH]; [reflexivity|].
  rewrite trimEnd_cons.
  destruct (trimEnd r) as [|d r'].
  - destruct (isWhiteSpace c) eqn:W; [reflexivity|].
    rewrite trimEnd_cons. simpl. now rewrite W.
  - rewrite trimEnd_cons, IH. reflexivity.
Qed.

(** What [trimEnd] returns does not start with white space unless its
    argument does. *)
Lemma trimEnd_head c r :
  isWhiteSpace c = false ->
  exists r', trimEnd (String c r) = String c r'.
Proof.
  intros W. simpl. destruct (trimEnd r) as [|d r'].
  - rewrite W. now exists EmptyString.
  - now exists (String d r').
Qed.

Lemma trimStart_head s :
  trimStart s = EmptyString \/
  exists c r, trimStart s = String c r /\ isWhiteSpace c = false.
Proof.
  induction s as [|c r IH]; simpl; [now left|].
  destruct (isWhiteSpace c) eqn:W; [exact IH|].
  right. now exists c, r.
Qed.

Lemma trim_idem s : trim (trim s) = trim s.
Proof.
  unfold trim.
  destruct (trimStart_head s) as [E | (c & r & E & W)]; rewrite E.
  - reflexivity.
  - destruct (trimEnd_head c r W) as (r' & E').
    rewrite E'. cbn [trimStart]. rewrite W. rewrite <- E'.
    apply trimEnd_idem.
Qed.

(** A normalized key is a fixed point of [normalize]. *)
Lemma normalize_fixed s : normalize (normalize s) = normalize s.
Proof.
  unfold normalize.
  rewrite trim_toLowerCase, trim_idem. apply toLowerCase_idem.
Qed.

(** C7.  The normalization is idempotent: for every string [s],
    [normalize (normalize s) = normalize s], where [normalize s] is [s]
    trimmed, then lower-cased. *)
Theorem normalize_idempotent (s : string) :
  normalize (normalize s) = normalize s.
Proof.
  unfold normalize.
  now rewrite trim_toLowerCase, trim_idem, toLowerCase_idem.
Qed.


(** ** Ordinary objects: lookup, key order *)

Section ObjectFacts.

Context {V : Type}.

Implicit Types (o : obj V) (k : string) (v : V).

Lemma own_In o k v : own o k = Some v -> In (k, v) o.
Proof.
  induction o as [|[k' v'] r IH]; simpl; [discriminate|].
  destruct (String.eqb k' k) eqn:E.
  - apply String.eqb_eq in E. intros [= ->]. subst. now left.
  - intros H. right. now apply IH.
Qed.

Lemma own_None o k : own o k = None <-> ~ In k (map fst o).
Proof.
  induction o as [|[k' v'] r IH]; simpl; [tauto|].
  destruct (String.eqb k' k) eqn:E.
  - apply String.eqb_eq in E. split; [discriminate | tauto].
  - apply String.eqb_neq in E. tauto.
Qed.

Lemma In_own o k v : wf o -> In (k, v) o -> own o k = Some v.
Proof.
  unfold wf. induction o as [|[k' v'] r IH]; simpl; [tauto|].
  intros ND [E | I]; inversion ND as [|? ? Hk ND']; subst.
  - injection E as -> ->. now rewrite String.eqb_refl.
  - destruct (String.eqb k' k) eqn:E.
    + apply String.eqb_eq in E. subst. exfalso. apply Hk.
      now apply (in_map fst) in I.
    + now apply IH.
Qed.

Lemma insertIndexed_perm n (p : string * V) l :
  Permutation (insertIndexed n p l) ((n, p) :: l).
Proof.
  induction l as [|[m q] r IH]; simpl; [reflexivity|].
  destruct (n <=? m)%N; [reflexivity|].
  rewrite IH. apply perm_swap.
Qed.

Lemma Object_entries_perm o : Permutation (Object_entries o) o.
Proof.
  unfold Object_entries, named.
  induction o as [|p r IH]; simpl; [reflexivity|].
  unfold isNamed. destruct (arrayIndex (fst p)) as [n|].
  - rewrite (Permutation_map snd (insertIndexed_perm n p (indexed r))).
    simpl. now constructor.
  - rewrite <- Permutation_middle. now constructor.
Qed.

Lemma Object_keys_perm o : Permutation (Object_keys o) (map fst o).
Proof. apply Permutation_map, Object_entries_perm. Qed.

Lemma Object_keys_NoDup o : wf o -> NoDup (Object_keys o).
Proof.
  intros W. eapply Permutation_NoDup; [|exact W].
  symmetry. apply Object_keys_perm.
Qed.

Lemma Object_keys_own o k : In k (Object_keys o) <-> own o k <> None.
Proof.
  rewrite own_None. split.
  - intros I N. apply N. eapply Permutation_in; [apply Object_keys_perm | exact I].
  - intros N. destruct (in_dec string_dec k (map fst o)) as [I|I]; [|tauto].
    eapply Permutation_in; [symmetry; apply Object_keys_perm | exact I].
Qed.

Lemma Object_entries_own o k v :
  wf o -> (In (k, v) (Object_entries o) <-> own o k = Some v).
Proof.
  intros W. split.
  - intros I. apply In_own; [exact W|].
    eapply Permutation_in; [apply Object_entries_perm | exact I].
  - intros H. eapply Permutation_in; [symmetry; apply Object_entries_perm|].
    now apply own_In.
Qed.

Lemma Object_entries_length o : length (Object_entries o) = length o.
Proof. apply Permutation_length, Object_entries_perm. Qed.

Lemma define_keys o k v :
  map fst (define o k v) =
  match own o k with Some _ => map fst o | None => map fst o ++ [k] end.
Proof.
  induction o as [|[k' v'] r IH]; simpl; [reflexivity|].
  destruct (String.eqb k' k) eqn:E; simpl; [reflexivity|].
  rewrite IH. now destruct (own r k).
Qed.

Lemma define_wf o k v : wf o -> wf (define o k v).
Proof.
  unfold wf. intros W. rewrite define_keys.
  destruct (own o k) eqn:E; [exact W|].
  apply own_None in E.
  eapply Permutation_NoDup; [apply Permutation_cons_append|].
  now constructor.
Qed.

Lemma fromMembers_wf (ms : list (string * V)) : wf (fromMembers ms).
Proof.
  unfold fromMembers.
  assert (G : forall o, wf o -> wf (fold_left (fun o m => define o (fst m) (snd m)) ms o)).
  { induction ms as [|m r IH]; simpl; [trivial|].
    intros o W. apply IH. now apply define_wf. }
  apply G. constructor.
Qed.

(** In a list whose images under [f] are pairwise distinct, exactly one
    element has a given image that occurs. *)
Lemma unique_by_key {A} (f : A -> string) (l : list A) k :
  NoDup (map f l) -> In k (map f l) ->
  length (filter (fun x => String.eqb (f x) k) l) = 1%nat.
Proof.
  induction l as [|x r IH]; simpl; [tauto|].
  intros ND I. inversion ND as [|? ? Hx ND']; subst.
  destruct (String.eqb (f x) k) eqn:E.
  - apply String.eqb_eq in E. subst. simpl. f_equal.
    clear IH I ND ND'. induction r as [|y r IH]; simpl; [reflexivity|].
    simpl in Hx. destruct (String.eqb (f y) (f x)) eqn:E.
    + apply String.eqb_eq in E. exfalso. apply Hx. now left.
    + apply IH. tauto.
  - apply String.eqb_neq in E. destruct I as [I|I]; [contradiction|].
    now apply IH.
Qed.

End ObjectFacts.

(** ** The data loader *)

Ltac run_loader :=
  unfold useWaterData, result, loaded, fetchData, try_catch_finally, bind,
    await, throw, ret, setData, setError, setLoading, Promise.all,
    load_fails, rejected, initialState;
  simpl.

(** The two ways a session ends: ready with both payloads, or in the
    error state with the initial data. *)
Lemma loaded_cases (net : Network) :
  (load_fails net = false /\
   exists t g,
     tws_fetch net = Fulfilled (mkResponse true (Fulfilled t)) /\
     boundaries_fetch net = Fulfilled (mkResponse true (Fulfilled g)) /\
     loaded net =
       {| data := {| tws := t; geojson := Some g |};
          loading := false; error := None |})
  \/
  (load_fails net = true /\
   exists msg,
     loaded net =
       {| data := initialData; loading := false; error := Some msg |}).
Proof.
  destruct net as [[[okt jt]|e1] [[okg jg]|e2] b]; run_loader.
  - destruct okt, okg; simpl; try (right; split; [reflexivity | eexists; reflexivity]).
    destruct jg as [g|eg]; simpl.
    + destruct jt as [t|et]; simpl.
      * left. split; [reflexivity|]. exists t, g. repeat split.
      * right. split; [reflexivity | eexists; reflexivity].
    + right. split; [now destruct jt | eexists; reflexivity].
  - right. split; [reflexivity | eexists; reflexivity].
  - right. split; [reflexivity | eexists; reflexivity].
  - right. split; [reflexivity | eexists; reflexivity].
Qed.

(** A status outside 200..299 is reported with the program's own text. *)
Lemma loaded_not_ok (net : Network) twsRes geojsonRes :
  tws_fetch net = Fulfilled twsRes ->
  boundaries_fetch net = Fulfilled geojsonRes ->
  ok twsRes && ok geojsonRes = false ->
  error (loaded net) = Some "Network response was not ok".
Proof.
  destruct net as [ft fg b]. simpl. intros -> -> H. run_loader.
  destruct (ok twsRes), (ok geojsonRes); try discriminate; reflexivity.
Qed.

(** C4.  For every pair of 2xx, well-formed responses the loader reaches
    the ready state (not loading, no error) with both datasets exactly as
    received: the time-series mapping [t] and the boundary collection [g]
    are published as they are, whichever response arrives first. *)
Theorem load_success_verbatim (t : TwsDataset) (g : BoundaryCollection) (b : bool) :
  loaded (answers t g b) =
    {| data := {| tws := t; geojson := Some g |};
       loading := false; error := None |}
  /\ useWaterData (answers t g b) = ready t g
  /\ r_tws (useWaterData (answers t g b)) = t
  /\ r_geojson (useWaterData (answers t g b)) = Some g.
Proof. repeat split. Qed.

(** C10.  Atomicity of the load: when the loader ends in the error state,
    the published data object is still its initial value
    [{ tws: {}, geojson: null }]; no partial dataset is exposed, even when
    one of the two responses was received and parsed before the other
    failed. *)
Theorem load_error_keeps_initial_data (net : Network) :
  error (loaded net) <> None ->
  data (loaded net) = initialData
  /\ r_tws (useWaterData net) = []
  /\ r_geojson (useWaterData net) = None.
Proof.
  intros E.
  destruct (loaded_cases net) as [(_ & t & g & _ & _ & L) | (_ & msg & L)].
  - rewrite L in E. now elim E.
  - unfold useWaterData. rewrite L. repeat split.
Qed.

Lemma load_error_keeps_initial_data_witness :
  error (loaded bad_body) <> None
  /\ data (loaded bad_body) = initialData
  /\ r_tws (useWaterData bad_body) = []
  /\ r_geojson (useWaterData bad_body) = None.
Proof.
  split.
  - vm_compute. discriminate.
  - apply (load_error_keeps_initial_data bad_body). vm_compute. discriminate.
Defined.

(** The message stored for each way of failing. *)
Lemma loaded_rejection (net : Network) (e : JsError) :
  Promise.all (boundaries_first net) (tws_fetch net) (boundaries_fetch net)
    = Rejected e ->
  error (loaded net) = Some (message e).
Proof.
  destruct net as [ft fg b]. simpl. intros P.
  unfold loaded, fetchData, try_catch_finally, bind, await, setError, setLoading.
  simpl. now rewrite P.
Qed.

Lemma loaded_bad_boundaries (net : Network) twsRes geojsonRes e :
  tws_fetch net = Fulfilled twsRes ->
  boundaries_fetch net = Fulfilled geojsonRes ->
  ok twsRes && ok geojsonRes = true ->
  json geojsonRes = Rejected e ->
  error (loaded net) = Some (message e).
Proof.
  destruct net as [ft fg b]. simpl. intros -> -> O J.
  apply andb_true_iff in O. destruct O as [Ot Og].
  run_loader. now rewrite Ot, Og, J.
Qed.

Lemma loaded_bad_tws (net : Network) twsRes geojsonRes g e :
  tws_fetch net = Fulfilled twsRes ->
  boundaries_fetch net = Fulfilled geojsonRes ->
  ok twsRes && ok geojsonRes = true ->
  json geojsonRes = Fulfilled g ->
  json twsRes = Rejected e ->
  error (loaded net) = Some (message e).
Proof.
  destruct net as [ft fg b]. simpl. intros -> -> O Jg Jt.
  apply andb_true_iff in O. destruct O as [Ot Og].
  run_loader. now rewrite Ot, Og, Jg, Jt.
Qed.

Lemma truthy_nonempty s : truthy s = true -> s <> "".
Proof. destruct s; [discriminate | discriminate]. Qed.

(** When the platform's errors carry a message, so does the error state. *)
Lemma loaded_message_nonempty (net : Network) msg :
  messages_nonempty net = true ->
  error (loaded net) = Some msg ->
  msg <> "".
Proof.
  assert (finish : forall (P : Prop) s, P -> (P -> truthy s = true) -> s <> "")
    by (intros P s p H; apply truthy_nonempty; auto).
  destruct net as [[[okt jt]|e1] [[okg jg]|e2] b];
    unfold messages_nonempty, has_message; simpl; run_loader.
  - destruct okt, okg; simpl;
      try (intros _ [= <-]; discriminate).
    destruct jg as [g|eg], jt as [t|et]; simpl; intros M E;
      try discriminate E; injection E as <-;
      apply (finish _ _ M); rewrite ?andb_true_iff; tauto.
  - intros M [= <-]. apply (finish _ _ M). rewrite ?andb_true_iff. tauto.
  - intros M [= <-]. apply (finish _ _ M). rewrite ?andb_true_iff. tauto.
  - intros M E. destruct b; injection E as <-;
      apply (finish _ _ M); rewrite ?andb_true_iff; tauto.
Qed.

(** C3.  For any pair of responses where at least one request fails or
    answers with a status outside 200..299, or a body cannot be parsed,
    the loader reaches the error state carrying the message of that
    failure (of the rejected request, else the fixed text for the
    status, else of the body that cannot be parsed, boundaries first),
    with the data untouched, and the dashboard renders the error text
    alone: neither the map nor the chart.  The errors of the platform
    are taken to carry a message, as those of [fetch] and [json()] do. *)
Theorem load_failure_error_state (net : Network) :
  load_fails net = true ->
  messages_nonempty net = true ->
  exists msg,
    loaded net = {| data := initialData; loading := false; error := Some msg |}
    /\ msg <> ""
    /\ (forall sel,
          App (useWaterData net) sel = ErrorView ("Error: " ++ msg)
          /\ showsMap (App (useWaterData net) sel) = false
          /\ showsChart (App (useWaterData net) sel) = false)
    /\ (forall e,
          Promise.all (boundaries_first net) (tws_fetch net) (boundaries_fetch net)
            = Rejected e ->
          msg = message e)
    /\ (forall twsRes geojsonRes,
          tws_fetch net = Fulfilled twsRes ->
          boundaries_fetch net = Fulfilled geojsonRes ->
          (ok twsRes && ok geojsonRes = false ->
           msg = "Network response was not ok")
          /\ (ok twsRes && ok geojsonRes = true ->
              forall e, json geojsonRes = Rejected e -> msg = message e)
          /\ (ok twsRes && ok geojsonRes = true ->
              forall g e, json geojsonRes = Fulfilled g ->
                          json twsRes = Rejected e -> msg = message e)).
Proof.
  intros F M.
  destruct (loaded_cases net) as [(F' & _) | (_ & msg & L)]; [congruence|].
  assert (E : error (loaded net) = Some msg) by now rewrite L.
  assert (NE : msg <> "") by exact (loaded_message_nonempty net msg M E).
  exists msg. split; [exact L|]. split; [exact NE|]. split; [|split].
  - intros sel. unfold useWaterData. rewrite L. unfold App, result. simpl.
    destruct msg as [|c r]; [now elim NE|]. simpl. repeat split.
  - intros e P. pose proof (loaded_rejection net e P) as E'. congruence.
  - intros twsRes geojsonRes Ht Hg. split; [|split].
    + intros O. pose proof (loaded_not_ok net twsRes geojsonRes Ht Hg O) as E'.
      congruence.
    + intros O e J.
      pose proof (loaded_bad_boundaries net twsRes geojsonRes e Ht Hg O J) as E'.
      congruence.
    + intros O g e Jg Jt.
      pose proof (loaded_bad_tws net twsRes geojsonRes g e Ht Hg O Jg Jt) as E'.
      congruence.
Qed.

Lemma load_failure_error_state_witness :
  load_fails bad_body = true
  /\ messages_nonempty bad_body = true
  /\ exists msg,
    loaded bad_body =
      {| data := initialData; loading := false; error := Some msg |}
    /\ msg <> ""
    /\ (forall sel,
          App (useWaterData bad_body) sel = ErrorView ("Error: " ++ msg)
          /\ showsMap (App (useWaterData bad_body) sel) = false
          /\ showsChart (App (useWaterData bad_body) sel) = false)
    /\ (forall e,
          Promise.all (boundaries_first bad_body) (tws_fetch bad_body)
                      (boundaries_fetch bad_body) = Rejected e ->
          msg = message e)
    /\ (forall twsRes geojsonRes,
          tws_fetch bad_body = Fulfilled twsRes ->
          boundaries_fetch bad_body = Fulfilled geojsonRes ->
          (ok twsRes && ok geojsonRes = false ->
           msg = "Network response was not ok")
          /\ (ok twsRes && ok geojsonRes = true ->
              forall e, json geojsonRes = Rejected e -> msg = message e)
          /\ (ok twsRes && ok geojsonRes = true ->
              forall g e, json geojsonRes = Fulfilled g ->
                          json twsRes = Rejected e -> msg = message e)).
Proof.
  split; [reflexivity|]. split; [reflexivity|].
  apply (load_failure_error_state bad_body); reflexivity.
Defined.

(** The hypothesis on the messages is used: the root tests the stored
    message for truthiness (line 204), so in a session whose failure
    carried an empty message the error state would hold the empty string
    and the dashboard would be rendered. *)
Lemma load_failure_empty_message_shows_dashboard :
  load_fails silent_failure = true
  /\ messages_nonempty silent_failure = false
  /\ loaded silent_failure =
       {| data := initialData; loading := false; error := Some "" |}
  /\ App (useWaterData silent_failure) initialSelection =
       DashboardView
         (MapComponent None handleDistrictClick)
         "No District Selected"
         (Placeholder "Click a district on the map to view its water status data.").
Proof. repeat split. Qed.

(** ** The map *)

Lemma districtName_truthy (feature : Feature) : truthy (districtName feature) = true.
Proof.
  unfold districtName, or_default, ifTruthy.
  destruct (DISTRICT (properties feature)) as [s|]; [|reflexivity].
  destruct (truthy s) eqn:E; [exact E | reflexivity].
Qed.

Lemma districtName_present (feature : Feature) name :
  DISTRICT (properties feature) = Some name -> name <> "" ->
  districtName feature = name.
Proof.
  unfold districtName, or_default, ifTruthy. intros -> NE.
  destruct name; [now elim NE | reflexivity].
Qed.

Lemma clickFeature_eq (feature : Feature) :
  clickFeature feature = Some (districtName feature).
Proof. reflexivity. Qed.

(** C8, as the code has it.  For every map feature whose [properties]
    member is an object, [onEachFeature] succeeds and a click on the
    feature invokes the callback with the feature's [DISTRICT] property
    when that property is present and not the empty string, and with the
    literal "Unknown" when it is absent or empty; the tooltip shows the
    same name and is not permanent. *)
Theorem click_reports_district_name {R : Type} (onDistrictClick : string -> R)
    (feature : Feature) :
  let name :=
    match DISTRICT (properties feature) with
    | Some EmptyString => "Unknown"
    | Some name => name
    | None => "Unknown"
    end in
  exists layer,
    onEachFeature_received onDistrictClick (WithProperties feature) = Some layer
    /\ click layer = onDistrictClick name
    /\ tooltip_text layer = name
    /\ permanent (tooltip_options layer) = false.
Proof.
  simpl. exists (onEachFeature onDistrictClick feature).
  split; [reflexivity|].
  unfold onEachFeature, districtName, or_default, ifTruthy. simpl.
  destruct (DISTRICT (properties feature)) as [[|c r]|]; repeat split.
Qed.

(** A feature whose [properties] member is [null] is outside that
    statement: reading [DISTRICT] from it throws, and no tooltip or
    listener is attached. *)
Lemma onEachFeature_null_properties {R : Type} (onDistrictClick : string -> R)
    geometry :
  onEachFeature_received onDistrictClick (NullProperties geometry) = None.
Proof. reflexivity. Qed.

(** C8, as stated, fails on a feature whose [DISTRICT] property is present
    and is the empty string: the callback receives "Unknown", not the
    property. *)
Lemma click_empty_district_reports_Unknown :
  DISTRICT (properties (district (Some ""))) = Some ""
  /\ click (onEachFeature (fun name : string => name) (district (Some ""))) = "Unknown"
  /\ click (onEachFeature (fun name : string => name) (district (Some ""))) <> "".
Proof. repeat split. discriminate. Qed.

(** ** Lookup of the selected district *)

Lemma normalize_nonempty name : normalize name <> "" -> name <> "".
Proof. intros H E. apply H. now rewrite E. Qed.

Lemma truthy_true s : truthy s = true <-> s <> "".
Proof. destruct s; simpl; split; congruence. Qed.

(** The lookup, for a selection that is a non-empty name. *)
Lemma selectedDistrictData_name (tws : TwsDataset) name :
  name <> "" ->
  selectedDistrictData tws (Some name) =
    if truthy (normalize name) then Get tws (normalize name) else Null.
Proof.
  intros NE. unfold selectedDistrictData, districtKey, ifTruthy.
  apply truthy_true in NE. now rewrite NE.
Qed.

(** The key that is looked up is the normalized name, hence normalized. *)
Lemma districtKey_normalized (sel : Selection) key :
  districtKey sel = Some key ->
  exists name, sel = Some name /\ key = normalize name /\ normalize key = key.
Proof.
  unfold districtKey, ifTruthy. destruct sel as [name|]; [|discriminate].
  destruct (truthy name); [|discriminate].
  intros [= <-]. exists name. repeat split. apply normalize_fixed.
Qed.

(** A series is found only under a normalized own key of the dataset. *)
Lemma selectedDistrictData_Own (tws : TwsDataset) (sel : Selection) series :
  selectedDistrictData tws sel = Own series ->
  exists k, In k (Object_keys tws) /\ own tws k = Some series /\ normalize k = k.
Proof.
  unfold selectedDistrictData.
  destruct (districtKey sel) as [key|] eqn:K; simpl; [|discriminate].
  destruct (districtKey_normalized sel key K) as (name & _ & _ & N).
  destruct (truthy key); [|discriminate].
  unfold Get. destruct (own tws key) as [s|] eqn:O.
  - intros [= <-]. exists key. repeat split; trivial.
    apply Object_keys_own. congruence.
  - destruct (inherited key); discriminate.
Qed.

(** C1, as the code has it.  If the key set of the dataset contains
    [normalize name] and that key is not the empty string, then selecting
    a map feature whose display name is [name] in any casing or
    white-space variant (any [variant] with the same normalized key)
    yields exactly the series stored under that key. *)
Theorem lookup_hit (tws : TwsDataset) (name variant : string)
    (series : WaterSeries) (feature : Feature) :
  own tws (normalize name) = Some series ->
  normalize name <> "" ->
  normalize variant = normalize name ->
  DISTRICT (properties feature) = Some variant ->
  clickFeature feature = Some variant
  /\ districtKey (clickFeature feature) = Some (normalize name)
  /\ selectedDistrictData tws (clickFeature feature) = Own series.
Proof.
  intros O NE EQ D.
  assert (V : variant <> "") by (apply normalize_nonempty; congruence).
  rewrite clickFeature_eq, (districtName_present feature variant D V).
  split; [reflexivity|]. split.
  - unfold districtKey, ifTruthy. apply truthy_true in V. now rewrite V, EQ.
  - rewrite (selectedDistrictData_name tws variant V), EQ.
    apply truthy_true in NE. rewrite NE. unfold Get. now rewrite O.
Qed.

Lemma lookup_hit_witness :
  own badgam_tws (normalize "Badgam") = Some badgam_series
  /\ normalize "Badgam" <> ""
  /\ normalize "  BADGAM " = normalize "Badgam"
  /\ DISTRICT (properties (district (Some "  BADGAM "))) = Some "  BADGAM "
  /\ clickFeature (district (Some "  BADGAM ")) = Some "  BADGAM "
  /\ districtKey (clickFeature (district (Some "  BADGAM ")))
     = Some (normalize "Badgam")
  /\ selectedDistrictData badgam_tws (clickFeature (district (Some "  BADGAM ")))
     = Own badgam_series.
Proof.
  assert (N : normalize "Badgam" <> "") by (vm_compute; discriminate).
  split; [reflexivity|]. split; [exact N|].
  split; [reflexivity|]. split; [reflexivity|].
  apply (lookup_hit badgam_tws "Badgam" "  BADGAM " badgam_series
           (district (Some "  BADGAM ")));
    [reflexivity | exact N | reflexivity | reflexivity].
Defined.

(** C1, as stated, fails for a display name made of white space only: its
    normalized key is the empty string, which the dataset may hold, but
    the lookup is skipped for an empty key and yields [null]. *)
Lemma lookup_blank_name_yields_null :
  own blank_tws (normalize " ") = Some badgam_series
  /\ DISTRICT (properties (district (Some " "))) = Some " "
  /\ selectedDistrictData blank_tws (clickFeature (district (Some " "))) = Null
  /\ selectedDistrictData blank_tws (clickFeature (district (Some " ")))
     <> Own badgam_series.
Proof. repeat split. discriminate. Qed.

(** C2, as the code has it.  The loader publishes the time-series dataset
    with the keys it received, without normalizing them, so they are
    normalized keys exactly when the payload's are.  The one place where
    [normalize] is applied is the lookup: the key looked up is the
    normalized display name of the selection, a fixed point of
    [normalize]; a series is found only under a key of the dataset that
    is a fixed point of [normalize], and a key that is not one is never
    looked up. *)
Theorem keys_normalized_at_lookup (t : TwsDataset) (g : BoundaryCollection)
    (b : bool) (sel : Selection) :
  r_tws (useWaterData (answers t g b)) = t
  /\ ((forall k, In k (Object_keys t) -> normalize k = k) ->
      forall k, In k (Object_keys (r_tws (useWaterData (answers t g b)))) ->
                normalize k = k)
  /\ (forall key, districtKey sel = Some key ->
        exists name, sel = Some name /\ key = normalize name /\ normalize key = key)
  /\ (forall series,
        selectedDistrictData (r_tws (useWaterData (answers t g b))) sel = Own series ->
        exists k, In k (Object_keys t) /\ own t k = Some series /\ normalize k = k)
  /\ (forall k, normalize k <> k -> districtKey sel <> Some k).
Proof.
  split; [reflexivity|]. split; [trivial|]. split; [apply districtKey_normalized|].
  split.
  - intros series. apply selectedDistrictData_Own.
  - intros k NK K.
    destruct (districtKey_normalized sel k K) as (_ & _ & _ & N). contradiction.
Qed.

(** C2, as stated, fails: a payload keyed by "Badgam" is published with
    that key, which is not a normalized key, and the district named
    "Badgam" then finds no data. *)
Lemma published_key_not_normalized :
  useWaterData (answers Badgam_tws badgam_boundaries false)
    = ready Badgam_tws badgam_boundaries
  /\ In "Badgam"
        (Object_keys (r_tws (useWaterData (answers Badgam_tws badgam_boundaries false))))
  /\ normalize "Badgam" <> "Badgam"
  /\ selectedDistrictData
       (r_tws (useWaterData (answers Badgam_tws badgam_boundaries false)))
       (clickFeature (district (Some "Badgam"))) = Undefined.
Proof. repeat split; [now left | discriminate]. Qed.

(** ** The chart *)

(** Without a series to draw, and with a district selected, the chart is
    the placeholder that names the district. *)
Lemma ChartComponent_no_series (d : slot WaterSeries) name :
  (forall series, d <> Own series) -> name <> "" ->
  ChartComponent d (Some name) =
    Placeholder ("No TWS data is available for " ++ name ++ ".").
Proof.
  intros N NE. unfold ChartComponent, ifTruthy.
  apply truthy_true in NE. rewrite NE.
  destruct d as [| |series|]; try reflexivity.
  now elim (N series).
Qed.

Lemma Get_absent (tws : TwsDataset) key :
  ~ In key (Object_keys tws) -> forall series, Get tws key <> Own series.
Proof.
  intros A series. unfold Get.
  destruct (own tws key) as [s|] eqn:O.
  - elim A. apply Object_keys_own. congruence.
  - destruct (inherited key); discriminate.
Qed.

(** In the ready state the dashboard is on screen. *)
Lemma App_ready (t : TwsDataset) (g : BoundaryCollection) (sel : Selection) :
  App (ready t g) sel =
    DashboardView
      (MapComponent (Some g) handleDistrictClick)
      (or_default sel "No District Selected")
      (ChartComponent (selectedDistrictData t sel) sel).
Proof. reflexivity. Qed.

Lemma or_default_truthy s d : truthy s = true -> or_default (Some s) d = s.
Proof. unfold or_default, ifTruthy. now intros ->. Qed.

(** C5.  For every selection, made by a click on a map feature, whose
    normalized name is absent from the key set of the dataset, the
    dashboard stays in place and the chart is the informational
    placeholder "No TWS data is available for <name>." naming the
    selected district: not an error view and not a chart without
    points.  The empty dataset is the case of the witness. *)
Theorem lookup_miss_placeholder (tws : TwsDataset) (g : BoundaryCollection)
    (feature : Feature) :
  ~ In (normalize (districtName feature)) (Object_keys tws) ->
  App (ready tws g) (clickFeature feature) =
    DashboardView
      (MapComponent (Some g) handleDistrictClick)
      (districtName feature)
      (Placeholder
         ("No TWS data is available for " ++ districtName feature ++ ".")).
Proof.
  intros A.
  pose proof (districtName_truthy feature) as T.
  assert (NE : districtName feature <> "") by now apply truthy_true.
  rewrite clickFeature_eq, App_ready, (or_default_truthy _ _ T).
  f_equal.
  apply ChartComponent_no_series; [|exact NE].
  rewrite (selectedDistrictData_name tws _ NE).
  destruct (truthy (normalize (districtName feature))); [|discriminate].
  now apply Get_absent.
Qed.

Lemma lookup_miss_placeholder_witness :
  ~ In (normalize (districtName (district (Some "Srinagar")))) (Object_keys ([] : TwsDataset))
  /\ App (ready [] badgam_boundaries) (clickFeature (district (Some "Srinagar"))) =
       DashboardView
         (MapComponent (Some badgam_boundaries) handleDistrictClick)
         "Srinagar"
         (Placeholder "No TWS data is available for Srinagar.").
Proof.
  split; [intros []|].
  apply (lookup_miss_placeholder [] badgam_boundaries (district (Some "Srinagar"))).
  intros [].
Defined.

(** C6.  For every non-empty series the chart view is a line chart whose
    points are the entries of the series, as (year-label, value) pairs,
    in the natural entry order of the mapping ([Object.entries]); every
    key of the series becomes exactly one point, carrying the value
    stored under it, and no entry is left out whatever its value. *)
Theorem chart_points_of_series (series : WaterSeries) (name : option string) :
  wf series ->
  series <> [] ->
  exists chartData,
    ChartComponent (Own series) name = LineChart chartData
    /\ map (fun p => (year p, TWS_BCM p)) chartData = Object_entries series
    /\ map year chartData = Object_keys series
    /\ length chartData = length series
    /\ (forall k v, own series k = Some v ->
          In {| year := k; TWS_BCM := v |} chartData
          /\ length (filter (fun p => String.eqb (year p) k) chartData) = 1%nat).
Proof.
  intros W NE.
  set (point := fun '(year, value) => {| year := year; TWS_BCM := value |}).
  exists (map point (Object_entries series)).
  assert (K : map year (map point (Object_entries series)) = Object_keys series).
  { unfold Object_keys. rewrite map_map. apply map_ext. now intros []. }
  split; [|split; [|split; [|split]]].
  - unfold ChartComponent. cbn [truthy_slot negb orb keysOf entriesOf].
    replace (length (Object_keys series)) with (length series)
      by (unfold Object_keys; now rewrite length_map, Object_entries_length).
    destruct series; [now elim NE | reflexivity].
  - rewrite map_map. rewrite <- (map_id (Object_entries series)) at 2.
    apply map_ext. now intros [].
  - exact K.
  - now rewrite length_map, Object_entries_length.
  - intros k v O. split.
    + apply (in_map point _ (k, v)). now apply Object_entries_own.
    + apply unique_by_key; rewrite K.
      * now apply Object_keys_NoDup.
      * apply Object_keys_own. congruence.
Qed.

Lemma chart_points_of_series_witness :
  wf badgam_series
  /\ badgam_series <> []
  /\ exists chartData,
    ChartComponent (Own badgam_series) (Some "Badgam") = LineChart chartData
    /\ map (fun p => (year p, TWS_BCM p)) chartData = Object_entries badgam_series
    /\ map year chartData = Object_keys badgam_series
    /\ length chartData = length badgam_series
    /\ (forall k v, own badgam_series k = Some v ->
          In {| year := k; TWS_BCM := v |} chartData
          /\ length (filter (fun p => String.eqb (year p) k) chartData) = 1%nat).
Proof.
  split; [apply fromMembers_wf|]. split; [discriminate|].
  apply (chart_points_of_series badgam_series (Some "Badgam"));
    [apply fromMembers_wf | discriminate].
Defined.

(** ** The root *)

(** C9.  In the no-selection state (before any click the selection is
    none), whenever the dashboard is on screen, the chart shows the
    instruction "Click a district on the map to view its water status
    data." and the pane title shows "No District Selected". *)
Theorem no_selection_view (hook : HookResult) :
  r_loading hook = false ->
  truthy_opt (r_error hook) = false ->
  App hook initialSelection =
    DashboardView
      (MapComponent (r_geojson hook) handleDistrictClick)
      "No District Selected"
      (Placeholder "Click a district on the map to view its water status data.").
Proof.
  intros L E. unfold App, ifTruthy. rewrite L.
  destruct (r_error hook) as [e|]; [|reflexivity].
  simpl in E. now rewrite E.
Qed.

Lemma no_selection_view_witness :
  r_loading (useWaterData (answers badgam_tws badgam_boundaries false)) = false
  /\ truthy_opt (r_error (useWaterData (answers badgam_tws badgam_boundaries false))) = false
  /\ App (useWaterData (answers badgam_tws badgam_boundaries false)) initialSelection =
       DashboardView
         (MapComponent
            (r_geojson (useWaterData (answers badgam_tws badgam_boundaries false)))
            handleDistrictClick)
         "No District Selected"
         (Placeholder "Click a district on the map to view its water status data.").
Proof.
  split; [reflexivity|]. split; [reflexivity|].
  apply (no_selection_view (useWaterData (answers badgam_tws badgam_boundaries false)));
    reflexivity.
Defined.

(** ** Scenarios of the specification *)

(** The payload [{"badgam": {"2010": 1.2, "2011": 1.5}}] and one feature
    named "Badgam": a click on it draws a two-point chart under the title
    "Badgam". *)
Example scenario_badgam :
  App (useWaterData (answers badgam_tws badgam_boundaries false))
      (clickFeature (district (Some "Badgam"))) =
    DashboardView
      (MapComponent (Some badgam_boundaries) handleDistrictClick)
      "Badgam"
      (LineChart [ {| year := "2010"; TWS_BCM := 1.2%float |};
                   {| year := "2011"; TWS_BCM := 1.5%float |} ]).
Proof. reflexivity. Qed.

(** Year labels are array indices: the chart follows their numeric order,
    not the order of the payload's text, and keeps a zero value. *)
Example scenario_entry_order :
  ChartComponent
    (Own (fromMembers [("2011", 1.5%float); ("note", 0%float); ("2010", 0%float)]))
    (Some "Badgam") =
  LineChart [ {| year := "2010"; TWS_BCM := 0%float |};
              {| year := "2011"; TWS_BCM := 1.5%float |};
              {| year := "note"; TWS_BCM := 0%float |} ].
Proof. reflexivity. Qed.

(** A key inherited from [Object.prototype] is not a key of the dataset:
    the district named "Constructor" gets the placeholder as well. *)
Example scenario_inherited_key :
  selectedDistrictData badgam_tws (clickFeature (district (Some "Constructor")))
    = Intrinsic
  /\ ChartComponent Intrinsic (Some "Constructor") =
       Placeholder "No TWS data is available for Constructor.".
Proof. split; reflexivity. Qed.

(** A 404 on the time series: the error view alone. *)
Example scenario_not_found (sel : Selection) :
  App (useWaterData not_found) sel = ErrorView "Error: Network response was not ok".
Proof. reflexivity. Qed.

(** While the requests are pending the loading text is shown. *)
Example scenario_mount (sel : Selection) :
  App useWaterData_mount sel = LoadingView "Loading Dashboard...".
Proof. reflexivity. Qed.

(** Trimming and lower-casing, on the code units below U+0100. *)
Example scenario_normalize :
  normalize "  Srinagar " = "srinagar"
  /\ normalize (String (ascii_of_N 160) (String (ascii_of_N 201) "COLE")) =
       String (ascii_of_N 233) "cole"
  /\ normalize "   " = "".
Proof. repeat split. Qed.

(** ** More on the data loader *)

(** [fetchData] from any state of the hook: what it leaves. *)
Lemma fetchData_cases (net : Network) (s : HookState) :
  (load_fails net = false /\
   exists t g,
     fetchData net s =
       ({| data := {| tws := t; geojson := Some g |};
           loading := false; error := error s |}, Fulfilled tt))
  \/
  (load_fails net = true /\
   exists msg,
     fetchData net s =
       ({| data := data s; loading := false; error := Some msg |}, Fulfilled tt)).
Proof.
  destruct net as [[[okt jt]|e1] [[okg jg]|e2] b]; run_loader;
    try (right; split; [reflexivity | eexists; reflexivity]).
  destruct okt, okg; simpl;
    try (right; split; [reflexivity | eexists; reflexivity]).
  destruct jg as [g|eg]; simpl.
  - destruct jt as [t|et]; simpl.
    + left. split; [reflexivity|]. now exists t, g.
    + right. split; [reflexivity | eexists; reflexivity].
  - right. split; [now destruct jt | eexists; reflexivity].
Qed.

(** X1.  [fetchData] never throws and never leaves the hook loading:
    whatever the two requests settle to and whatever state it starts
    from, the promise it returns is fulfilled and [loading] is false. *)
Theorem fetchData_settles (net : Network) (s : HookState) :
  snd (fetchData net s) = Fulfilled tt
  /\ loading (fst (fetchData net s)) = false.
Proof.
  destruct (fetchData_cases net s) as [(_ & t & g & E) | (_ & msg & E)];
    rewrite E; split; reflexivity.
Qed.

(** X2.  The loader ends without an error exactly when neither request
    fails: both are fulfilled with a 2xx status and a body that parses.
    In every other case an error message is stored. *)
Theorem error_iff_load_fails (net : Network) :
  (error (loaded net) = None <-> load_fails net = false)
  /\ ((exists msg, error (loaded net) = Some msg) <-> load_fails net = true).
Proof.
  destruct (loaded_cases net) as [(F & t & g & _ & _ & L) | (F & msg & L)];
    rewrite L, F; simpl; split; split; try congruence.
  - intros [msg E]. discriminate.
  - intros _. now exists msg.
Qed.

(** X3.  When a request itself fails, so that [Promise.all] rejects, the
    message stored is that of the rejection, whatever the status and the
    body of the other response, which are not looked at; the data stay
    as they were. *)
Theorem rejection_reported (net : Network) (e : JsError) (s : HookState) :
  Promise.all (boundaries_first net) (tws_fetch net) (boundaries_fetch net)
    = Rejected e ->
  fst (fetchData net s) =
    {| data := data s; loading := false; error := Some (message e) |}.
Proof.
  destruct net as [ft fg b]. simpl. intros P.
  unfold fetchData, try_catch_finally, bind, await, setError, setLoading.
  simpl. rewrite P. reflexivity.
Qed.

Lemma rejection_reported_witness :
  Promise.all (boundaries_first both_rejected) (tws_fetch both_rejected)
              (boundaries_fetch both_rejected)
    = Rejected (Error "boundaries unreachable")
  /\ fst (fetchData both_rejected initialState) =
       {| data := data initialState; loading := false;
          error := Some (message (Error "boundaries unreachable")) |}.
Proof.
  split; [reflexivity|].
  apply (rejection_reported both_rejected (Error "boundaries unreachable")
           initialState).
  reflexivity.
Defined.

(** X4.  With two 2xx responses the body of the boundaries is parsed
    first: if it cannot be parsed its message is the one stored, also
    when the body of the time series is malformed too; the message of
    the time series is stored only when the boundaries parse. *)
Theorem body_errors_in_order (net : Network)
    (twsRes : Response TwsDataset) (geojsonRes : Response BoundaryCollection) :
  tws_fetch net = Fulfilled twsRes ->
  boundaries_fetch net = Fulfilled geojsonRes ->
  ok twsRes = true ->
  ok geojsonRes = true ->
  (forall e, json geojsonRes = Rejected e ->
             error (loaded net) = Some (message e))
  /\ (forall g e, json geojsonRes = Fulfilled g -> json twsRes = Rejected e ->
                  error (loaded net) = Some (message e)).
Proof.
  destruct net as [ft fg b]. simpl. intros -> -> Ot Og.
  split.
  - intros e J. run_loader. now rewrite Ot, Og, J.
  - intros g e Jg Jt. run_loader. now rewrite Ot, Og, Jg, Jt.
Qed.

Lemma body_errors_in_order_witness :
  tws_fetch both_malformed
    = Fulfilled (mkResponse true (Rejected (Error "bad tws")))
  /\ error (loaded both_malformed) = Some "bad boundaries".
Proof.
  split; [reflexivity|].
  apply (proj1 (body_errors_in_order both_malformed
                  (mkResponse true (Rejected (Error "bad tws")))
                  (mkResponse true (Rejected (Error "bad boundaries")))
                  eq_refl eq_refl eq_refl eq_refl)
               (Error "bad boundaries")).
  reflexivity.
Defined.

(** X5.  [fetchData] writes [data] only when the load succeeds and
    [error] only when it fails: from any state, a failed load leaves the
    data it found, and a successful load leaves the error it found (it
    does not clear it). *)
Theorem fetchData_frame (net : Network) (s : HookState) :
  (load_fails net = true -> data (fst (fetchData net s)) = data s)
  /\ (load_fails net = false -> error (fst (fetchData net s)) = error s).
Proof.
  destruct (fetchData_cases net s) as [(F & t & g & E) | (F & msg & E)];
    rewrite E, F; split; intros; (reflexivity || discriminate).
Qed.

(** X6.  Whatever the requests settle to, once the effect has run the
    root never shows the loading text again: it shows the error text,
    and then the load failed with a message that is not empty, or it
    shows the dashboard, and then the load succeeded or failed with an
    empty message. *)
Theorem root_view_after_load (net : Network) (sel : Selection) :
  match App (useWaterData net) sel with
  | LoadingView _ => False
  | ErrorView text =>
      load_fails net = true
      /\ exists msg, error (loaded net) = Some msg /\ msg <> ""
                     /\ text = ("Error: " ++ msg)%string
  | DashboardView m _ _ =>
      (load_fails net = false \/ error (loaded net) = Some "")
      /\ m = MapComponent (geojson (data (loaded net))) handleDistrictClick
  end.
Proof.
  unfold useWaterData.
  destruct (loaded_cases net) as [(F & t & g & _ & _ & L) | (F & msg & L)];
    rewrite L; unfold App, result, ifTruthy; simpl.
  - split; [now left | reflexivity].
  - destruct msg as [|c r]; simpl.
    + split; [now right | reflexivity].
    + split; [exact F|]. exists (String c r). repeat split. discriminate.
Qed.

(** ** More on the map *)

Lemma setStyle_setStyle o a b : setStyle (setStyle o a) b = setStyle o b.
Proof. reflexivity. Qed.

(** After a sequence of pointer events only the last one counts. *)
Lemma fold_pointer_last {R} (layer : Layer R) events e o :
  fold_left (fun o e => pointer layer e o) (events ++ [e]) o =
    pointer layer e o.
Proof.
  revert o. induction events as [|e' r IH]; intros o; simpl; [reflexivity|].
  rewrite IH. now destruct e, e'.
Qed.

(** X8.  Pointer events on the layer of any feature: after any sequence
    of events that ends with the pointer leaving, the layer has the
    style the GeoJSON layer was given (the highlight is undone exactly);
    after one that ends with the pointer entering, only the stroke has
    changed, to weight 3 and colour "#3b82f6"; the opacity and the fill
    never change. *)
Theorem hover_restores_style {R : Type} (onDistrictClick : string -> R)
    (feature : Feature) (events : list PointerEvent) :
  let layer := onEachFeature onDistrictClick feature in
  styleAfter layer (events ++ [MouseOut]) = geoJsonStyle
  /\ styleAfter layer (events ++ [MouseOver]) =
       {| Leaflet.color := "#3b82f6";
          Leaflet.weight := 3;
          Leaflet.opacity := Leaflet.opacity geoJsonStyle;
          Leaflet.fillColor := Leaflet.fillColor geoJsonStyle;
          Leaflet.fillOpacity := Leaflet.fillOpacity geoJsonStyle |}
  /\ styleAfter layer [] = geoJsonStyle.
Proof.
  unfold styleAfter. rewrite !fold_pointer_last. repeat split.
Qed.

(** ** More on the selection *)

Lemma selectionAfter_last clicks feature :
  selectionAfter (clicks ++ [feature]) = Some (districtName feature).
Proof.
  unfold selectionAfter. rewrite fold_left_app. reflexivity.
Qed.

Lemma ChartComponent_not_instruction (d : slot WaterSeries) name :
  name <> "" -> ChartComponent d (Some name) <> Placeholder instruction.
Proof.
  intros NE. unfold ChartComponent, ifTruthy.
  apply truthy_true in NE. rewrite NE.
  destruct (negb (truthy_slot d) || (length (keysOf d) =? 0)%nat); discriminate.
Qed.

(** X9.  The selection always reflects the most recent click: after any
    sequence of clicks that ends on a feature, the selection is that
    feature's reported name, whatever was selected before and whether or
    not the dataset has it; the title is that name as reported (not
    normalized), and the chart is no longer the instruction to click a
    district. *)
Theorem selection_is_last_click (t : TwsDataset) (g : BoundaryCollection)
    (clicks : list Feature) (feature : Feature) :
  let sel := selectionAfter (clicks ++ [feature]) in
  sel = Some (districtName feature)
  /\ exists chart,
       App (ready t g) sel =
         DashboardView (MapComponent (Some g) handleDistrictClick)
                       (districtName feature) chart
       /\ chart <> Placeholder instruction.
Proof.
  simpl. rewrite selectionAfter_last. split; [reflexivity|].
  pose proof (districtName_truthy feature) as T.
  eexists. rewrite App_ready, (or_default_truthy _ _ T).
  split; [reflexivity|].
  apply ChartComponent_not_instruction. now apply truthy_true.
Qed.

(** X10.  Every feature without a usable name (no [DISTRICT] property,
    or an empty one) is selected as "Unknown" and looks up the key
    "unknown": all such features share whatever the dataset stores under
    that key. *)
Theorem unnamed_features_share_key (t : TwsDataset) (feature : Feature) :
  DISTRICT (properties feature) = None \/ DISTRICT (properties feature) = Some "" ->
  clickFeature feature = Some "Unknown"
  /\ districtKey (clickFeature feature) = Some "unknown"
  /\ selectedDistrictData t (clickFeature feature) = Get t "unknown".
Proof.
  intros D. rewrite clickFeature_eq.
  assert (E : districtName feature = "Unknown").
  { unfold districtName. destruct D as [-> | ->]; reflexivity. }
  rewrite E. repeat split.
Qed.

Lemma unnamed_features_share_key_witness :
  (DISTRICT (properties (district None)) = None
   \/ DISTRICT (properties (district None)) = Some "")
  /\ clickFeature (district None) = Some "Unknown"
  /\ districtKey (clickFeature (district None)) = Some "unknown"
  /\ selectedDistrictData badgam_tws (clickFeature (district None))
     = Get badgam_tws "unknown".
Proof.
  split; [now left|].
  apply (unnamed_features_share_key badgam_tws (district None)). now left.
Defined.

(** X11.  The lookup depends on the selected name only through its
    normalized key: two names with the same normalized key, neither
    empty, select the same data, and whenever one of them gets a line
    chart the other gets the same chart. *)
Theorem lookup_by_normalized_key (t : TwsDataset) (a b : string) :
  a <> "" -> b <> "" -> normalize a = normalize b ->
  selectedDistrictData t (Some a) = selectedDistrictData t (Some b)
  /\ forall chartData,
       ChartComponent (selectedDistrictData t (Some a)) (Some a) = LineChart chartData ->
       ChartComponent (selectedDistrictData t (Some b)) (Some b) = LineChart chartData.
Proof.
  intros A B N.
  assert (E : selectedDistrictData t (Some a) = selectedDistrictData t (Some b)).
  { now rewrite (selectedDistrictData_name t a A),
                (selectedDistrictData_name t b B), N. }
  split; [exact E|]. rewrite <- E. intros chartData.
  unfold ChartComponent.
  destruct (negb (truthy_slot (selectedDistrictData t (Some a)))
            || (length (keysOf (selectedDistrictData t (Some a))) =? 0)%nat);
    [discriminate | trivial].
Qed.

Lemma lookup_by_normalized_key_witness :
  "Badgam" <> "" /\ " BADGAM" <> "" /\ normalize "Badgam" = normalize " BADGAM"
  /\ selectedDistrictData badgam_tws (Some "Badgam")
     = selectedDistrictData badgam_tws (Some " BADGAM")
  /\ forall chartData,
       ChartComponent (selectedDistrictData badgam_tws (Some "Badgam")) (Some "Badgam")
         = LineChart chartData ->
       ChartComponent (selectedDistrictData badgam_tws (Some " BADGAM")) (Some " BADGAM")
         = LineChart chartData.
Proof.
  split; [discriminate|]. split; [discriminate|]. split; [reflexivity|].
  apply (lookup_by_normalized_key badgam_tws "Badgam" " BADGAM");
    [discriminate | discriminate | reflexivity].
Defined.

(** ** More on the chart *)

(** The chart of an object of the data model, by cases on its being
    empty. *)
Lemma ChartComponent_Own (series : WaterSeries) (name : option string) :
  ChartComponent (Own series) name =
    match series with
    | [] =>
        Placeholder
          (ifTruthy name
             (fun name => ("No TWS data is available for " ++ name ++ ".")%string)
             instruction)
    | _ :: _ =>
        LineChart
          (map (fun '(year, value) => {| year := year; TWS_BCM := value |})
               (Object_entries series))
    end.
Proof.
  unfold ChartComponent. cbn [truthy_slot negb orb keysOf entriesOf].
  replace (length (Object_keys series)) with (length series)
    by (unfold Object_keys; now rewrite length_map, Object_entries_length).
  now destruct series.
Qed.

(** X12.  The chart is drawn exactly for a series with at least one
    entry: a line chart never has zero points and always comes from an
    object of the dataset with as many entries as points; [null],
    [undefined], an inherited value and a series without entries all end
    in the placeholder. *)
Theorem chart_drawn_iff_entries (d : slot WaterSeries) (name : option string) :
  match ChartComponent d name with
  | LineChart chartData =>
      chartData <> []
      /\ exists series,
           d = Own series /\ series <> []
           /\ length chartData = length series
  | Placeholder _ => forall series, d = Own series -> series = []
  end.
Proof.
  destruct d as [| |series|]; try (simpl; discriminate).
  rewrite ChartComponent_Own. destruct series as [|p r].
  - now intros series [= <-].
  - assert (L : length
                  (map (fun '(year, value) => {| year := year; TWS_BCM := value |})
                       (Object_entries (p :: r))) = length (p :: r))
      by now rewrite length_map, Object_entries_length.
    split.
    + intros E. rewrite E in L. discriminate.
    + exists (p :: r). repeat split; [discriminate | exact L].
Qed.

Section KeyOrder.

Context {V : Type}.

Implicit Types (o : obj V).

Lemma insertIndexed_sorted n (p : string * V) l :
  Sorted N.le (map fst l) -> Sorted N.le (map fst (insertIndexed n p l)).
Proof.
  induction l as [|[m q] r IH]; simpl; intros S.
  - repeat constructor.
  - destruct (n <=? m)%N eqn:E; simpl.
    + constructor; [exact S|]. constructor. now apply N.leb_le.
    + apply N.leb_gt in E. inversion S as [|? ? S' H]; subst.
      constructor; [now apply IH|].
      destruct r as [|[m' q'] r']; simpl.
      * constructor. now apply N.lt_le_incl.
      * destruct (n <=? m')%N; simpl; constructor.
        -- now apply N.lt_le_incl.
        -- now inversion H.
Qed.

Lemma indexed_sorted o : Sorted N.le (map fst (indexed o)).
Proof.
  induction o as [|p r IH]; simpl; [constructor|].
  destruct (arrayIndex (fst p)); [now apply insertIndexed_sorted | exact IH].
Qed.

Lemma indexed_index o :
  Forall (fun x => arrayIndex (fst (snd x)) = Some (fst x)) (indexed o).
Proof.
  induction o as [|p r IH]; simpl; [constructor|].
  destruct (arrayIndex (fst p)) as [n|] eqn:E; [|exact IH].
  eapply Permutation_Forall; [symmetry; apply insertIndexed_perm|].
  now constructor.
Qed.

Lemma named_nil o :
  (forall k, In k (map fst o) -> arrayIndex k <> None) -> named o = [].
Proof.
  unfold named. induction o as [|p r IH]; simpl; intros H; [reflexivity|].
  unfold isNamed. destruct (arrayIndex (fst p)) eqn:E.
  - apply IH. intros k I. apply H. now right.
  - elim (H (fst p)); [now left | exact E].
Qed.

End KeyOrder.

(** X13.  A series whose labels are all array indices, as year numbers
    are, is charted in ascending numeric order of its labels, whatever
    the order of the entries in the payload. *)
Theorem chart_in_year_order (series : WaterSeries) (name : option string) :
  series <> [] ->
  (forall k, In k (map fst series) -> arrayIndex k <> None) ->
  exists chartData years,
    ChartComponent (Own series) name = LineChart chartData
    /\ map (fun p => arrayIndex (year p)) chartData = map Some years
    /\ Sorted N.le years.
Proof.
  intros NE H.
  exists (map (fun '(year, value) => {| year := year; TWS_BCM := value |})
              (Object_entries series)), (map fst (indexed series)).
  split; [|split].
  - rewrite ChartComponent_Own. destruct series; [now elim NE | reflexivity].
  - unfold Object_entries. rewrite (named_nil series H), app_nil_r, !map_map.
    pose proof (indexed_index series) as F.
    induction F as [|[n [k v]] l E F IH]; simpl; [reflexivity|].
    simpl in E. now rewrite E, IH.
  - apply indexed_sorted.
Qed.

Lemma chart_in_year_order_witness :
  exists chartData years,
    ChartComponent
      (Own [("2011", 1.5%float); ("2009", 0%float); ("2010", 1.2%float)])
      None = LineChart chartData
    /\ map (fun p => arrayIndex (year p)) chartData = map Some years
    /\ Sorted N.le years.
Proof.
  apply (chart_in_year_order
           [("2011", 1.5%float); ("2009", 0%float); ("2010", 1.2%float)] None).
  - discriminate.
  - intros k [<- | [<- | [<- | []]]]; discriminate.
Defined.

(** ** More on the normalized key *)

Lemma trimStart_all_space a : allWhiteSpace a = true -> trimStart a = "".
Proof.
  induction a as [|c r IH]; simpl; [reflexivity|].
  intros H. apply andb_true_iff in H. destruct H as [-> H]. now apply IH.
Qed.

Lemma trimEnd_all_space b : allWhiteSpace b = true -> trimEnd b = "".
Proof.
  induction b as [|c r IH]; [reflexivity|].
  rewrite trimEnd_cons. simpl.
  intros H. apply andb_true_iff in H. destruct H as [-> H]. now rewrite (IH H).
Qed.

Lemma trimStart_app_space a t :
  allWhiteSpace a = true -> trimStart (a ++ t) = trimStart t.
Proof.
  induction a as [|c r IH]; simpl; [reflexivity|].
  intros H. apply andb_true_iff in H. destruct H as [-> H]. now apply IH.
Qed.

Lemma trimEnd_app_space t b :
  allWhiteSpace b = true -> trimEnd (t ++ b) = trimEnd t.
Proof.
  intros H. induction t as [|c r IH].
  - simpl. now apply trimEnd_all_space.
  - change (trimEnd (String c (r ++ b)) = trimEnd (String c r)).
    now rewrite !trimEnd_cons, IH.
Qed.

Lemma trim_app_space s b : allWhiteSpace b = true -> trim (s ++ b) = trim s.
Proof.
  intros H. unfold trim. induction s as [|c r IH].
  - simpl. now rewrite (trimStart_all_space b H).
  - simpl. destruct (isWhiteSpace c); [exact IH|].
    change (trimEnd (String c r ++ b) = trimEnd (String c r)).
    now apply trimEnd_app_space.
Qed.

(** X15.  The normalized key ignores white space around the name and
    the case of its letters: padding a name on either side with any
    white space, or lower-casing it, gives the same key. *)
Theorem normalize_ignores_padding_and_case (a s b : string) :
  allWhiteSpace a = true ->
  allWhiteSpace b = true ->
  normalize (a ++ s ++ b) = normalize s
  /\ normalize (a ++ toLowerCase s ++ b) = normalize s.
Proof.
  intros A B. unfold normalize.
  assert (T : forall t, trim (a ++ t ++ b) = trim t).
  { intros t. unfold trim. rewrite (trimStart_app_space a _ A).
    apply (trim_app_space t b B). }
  rewrite !T. split; [reflexivity|].
  rewrite trim_toLowerCase. apply toLowerCase_idem.
Qed.

Lemma normalize_ignores_padding_and_case_witness :
  allWhiteSpace "  " = true
  /\ allWhiteSpace " " = true
  /\ normalize ("  " ++ "Leh Ladakh" ++ " ") = normalize "Leh Ladakh"
  /\ normalize ("  " ++ toLowerCase "Leh Ladakh" ++ " ") = normalize "Leh Ladakh".
Proof.
  split; [reflexivity|]. split; [reflexivity|].
  apply (normalize_ignores_padding_and_case "  " "Leh Ladakh" " "); reflexivity.
Defined.

(** ** The keys a click can reach *)

(** X14.  A key of the dataset can be reached by a click exactly when it
    is not empty and is a fixed point of the normalization: for such a
    key the feature named by the key itself selects its series, and for
    any other key of the dataset no feature is looked up under it. *)
Theorem reachable_keys (t : TwsDataset) (k : string) (series : WaterSeries) :
  own t k = Some series ->
  ((exists feature,
      districtKey (clickFeature feature) = Some k
      /\ selectedDistrictData t (clickFeature feature) = Own series)
   <-> (k <> "" /\ normalize k = k)).
Proof.
  intros O. split.
  - intros (feature & K & D).
    destruct (districtKey_normalized _ _ K) as (_ & _ & _ & N).
    split; [|exact N].
    unfold selectedDistrictData in D. rewrite K in D. simpl in D.
    destruct k; [discriminate D | discriminate].
  - intros (NE & N). exists (district (Some k)).
    rewrite clickFeature_eq, (districtName_present (district (Some k)) k eq_refl NE).
    split.
    + unfold districtKey, ifTruthy. apply truthy_true in NE. now rewrite NE, N.
    + rewrite (selectedDistrictData_name t k NE), N.
      apply truthy_true in NE. rewrite NE. unfold Get. now rewrite O.
Qed.

Lemma reachable_keys_witness :
  own badgam_tws "badgam" = Some badgam_series
  /\ ((exists feature,
         districtKey (clickFeature feature) = Some "badgam"
         /\ selectedDistrictData badgam_tws (clickFeature feature) = Own badgam_series)
      <-> ("badgam" <> "" /\ normalize "badgam" = "badgam")).
Proof.
  split; [reflexivity|].
  apply (reachable_keys badgam_tws "badgam" badgam_series). reflexivity.
Defined.
